(** * UART DMA ring buffer: the periodic drain of [main.c]

    A shallow embedding of [uart_transmit] and [SysTick_Handler] from
    [src/main.c], and the properties of the drain algorithm:
    which bytes a tick echoes, in which order, in how many spans, and
    what it leaves untouched. *)

From Stdlib Require Import ZArith Lia.
From Stdlib.Strings Require Import Byte.
From stdpp Require Import base list strings.

Local Open Scope Z_scope.

(** ** Constants of [main.c] *)

(** [#define RING_BUFFER_SIZE 4096] *)
Definition RING_BUFFER_SIZE : Z := 4096.

(** [#define GPDMA_CHANNEL_2 2] *)
Definition GPDMA_CHANNEL_2 : Z := 2.

(** [uint32_t] arithmetic wraps modulo [2^32]. *)
Definition to_uint32 (z : Z) : Z := z mod 2 ^ 32.

(** ** Machine state

    [ring_buffer] is the array [static volatile uint8_t ring_buffer[N]],
    [start] the [static uint32_t start] of [SysTick_Handler], and
    [dma_transferred] the counter of DMA channel 2 that
    [XMC_DMA_CH_GetTransferredData] reads. *)
Record machine : Type := Machine {
  ring_buffer : list byte;
  start : Z;
  dma_transferred : Z
}.

(** What one call does that is visible from outside: entering
    [uart_transmit] with [data = &ring_buffer[off]] and [len], a read of
    [ring_buffer[off]] through [*data], and a byte handed to
    [XMC_UART_CH_Transmit]. *)
Inductive event : Type :=
| EvSpan (off len : Z)
| EvLoad (off : Z)
| EvTx (b : byte).

(** State, failure (a read outside the array) and the events so far. *)
Definition M (A : Type) : Type := machine -> option (A * machine * list event).

Definition ret {A : Type} (a : A) : M A := fun m => Some (a, m, []).

Definition bind {A B : Type} (c : M A) (k : A -> M B) : M B :=
  fun m =>
    match c m with
    | None => None
    | Some (a, m1, t1) =>
        match k a m1 with
        | None => None
        | Some (b, m2, t2) => Some (b, m2, t1 ++ t2)
        end
    end.

Notation "x <- c ;; k" := (bind c (fun x => k))
  (at level 20, c at level 99, k at level 200, only parsing).

Definition emit (e : event) : M unit := fun m => Some (tt, m, [e]).

Definition get_start : M Z := fun m => Some (start m, m, []).

Definition set_start (v : Z) : M unit :=
  fun m => Some (tt, Machine (ring_buffer m) v (dma_transferred m), []).

(** [XMC_DMA_CH_GetTransferredData(XMC_DMA0, GPDMA_CHANNEL_2)]: the
    library call returns the channel's counter as a [uint32_t]. *)
Definition XMC_DMA_CH_GetTransferredData : M Z :=
  fun m => Some (to_uint32 (dma_transferred m), m, []).

(** [XMC_UART_CH_Transmit(channel, b)] puts one byte on the wire. *)
Definition XMC_UART_CH_Transmit (b : byte) : M unit := emit (EvTx b).

(** Projections of a trace. *)
Definition tx_bytes (t : list event) : list byte :=
  omap (fun e => match e with EvTx b => Some b | _ => None end) t.

Definition load_offsets (t : list event) : list Z :=
  omap (fun e => match e with EvLoad o => Some o | _ => None end) t.

Definition span_calls (t : list event) : list (Z * Z) :=
  omap (fun e => match e with EvSpan o l => Some (o, l) | _ => None end) t.

Section Capacity.

(** The capacity of the ring buffer. The build of [main.c] fixes it to
    [RING_BUFFER_SIZE]; the handler only uses it through that macro, so
    the embedding takes it as a parameter. *)
Variable N : Z.

(** [*data] where [data] points [off] bytes after [&ring_buffer[0]].
    Reading outside the [N] bytes of the array is a fault. *)
Definition deref (off : Z) : M byte :=
  fun m =>
    if bool_decide (0 <= off < N) then
      match ring_buffer m !! Z.to_nat off with
      | Some b => Some (b, m, [EvLoad off])
      | None => None
      end
    else None.

(** The body of [for (uint32_t i = 0; i < len; ++i, ++data)], with [n]
    the iterations left. *)
Fixpoint uart_transmit_loop (n : nat) (data : Z) : M unit :=
  match n with
  | O => ret tt
  | S n' =>
      b <- deref data ;;
      _ <- XMC_UART_CH_Transmit b ;;
      uart_transmit_loop n' (data + 1)
  end.

(** [static void uart_transmit(channel, data, len)]; [data] is the offset
    of the pointer into [ring_buffer]. *)
Definition uart_transmit (data len : Z) : M unit :=
  _ <- emit (EvSpan data len) ;;
  uart_transmit_loop (Z.to_nat len) data.

(** [void SysTick_Handler(void)]. [ENABLE_XMC_DEBUG_PRINT] is 0, so the
    assignment to [TRIGGERED] after the [if] is compiled out. *)
Definition SysTick_Handler : M unit :=
  s <- get_start ;;
  end_ <- XMC_DMA_CH_GetTransferredData ;;
  if negb (s =? end_) then
    _ <- (if s <? end_ then
            uart_transmit s (to_uint32 (end_ - s))
          else
            _ <- uart_transmit s (to_uint32 (N - s)) ;;
            uart_transmit 0 end_) ;;
    set_start end_
  else ret tt.

(** Modelled from the spec: the Producer Driver, which is the DMA hardware
    and is not part of [main.c]. It stores one received byte at the
    current write offset and advances the offset, wrapping to 0 after the
    last offset. *)
Definition dma_write (m : machine) (b : byte) : machine :=
  Machine (<[Z.to_nat (dma_transferred m) := b]> (ring_buffer m))
          (start m)
          ((dma_transferred m + 1) mod N).

(** A burst of bytes, stored in the order received. *)
Definition dma_write_all (ws : list byte) (m : machine) : machine :=
  foldl dma_write m ws.

(** The state after reset: static storage is zeroed. *)
Definition reset_machine : machine :=
  Machine (replicate (Z.to_nat N) x00) 0 0.

(** Offsets fit the array and the capacity fits a [uint32_t]. *)
Definition wf (m : machine) : Prop :=
  0 < N < 2 ^ 32 /\
  Z.of_nat (length (ring_buffer m)) = N /\
  0 <= start m < N /\
  0 <= dma_transferred m < N.

(** Anything the rest of the system may do between two ticks: the DMA
    moves its offset inside the buffer and rewrites bytes; it never
    touches [start]. *)
Definition env_step (m m' : machine) : Prop :=
  start m' = start m /\
  length (ring_buffer m') = length (ring_buffer m) /\
  0 <= dma_transferred m' < N.

(** States the system goes through from reset. *)
Inductive reachable : machine -> Prop :=
| reach_reset : reachable reset_machine
| reach_env m m' : reachable m -> env_step m m' -> reachable m'
| reach_tick m m' t :
    reachable m -> SysTick_Handler m = Some (tt, m', t) -> reachable m'.

(** The bytes of the array at offsets [lo, hi). *)
Definition slice (buf : list byte) (lo hi : Z) : list byte :=
  take (Z.to_nat (hi - lo)) (drop (Z.to_nat lo) buf).

(** The offsets of the circular half-open region from [s] to [e]:
    [s], [s+1], ... wrapping after [N - 1], up to but excluding [e]. *)
Definition circular_region (s e : Z) : list Z :=
  (fun i => (s + i) mod N) <$> seqZ 0 ((e - s) mod N).

End Capacity.

(** Sample states with a capacity of 8: the array holds the bytes
    [a] to [h]. *)
Definition buf8 : list byte := [x61; x62; x63; x64; x65; x66; x67; x68].

(** [start = 2], write offset 6. *)
Definition m_linear : machine := Machine buf8 2 6.

(** [start = 6], write offset 2. *)
Definition m_wrapped : machine := Machine buf8 6 2.

(** [start = 6], write offset 0. *)
Definition m_wrap_to_zero : machine := Machine buf8 6 0.

(** [start] and write offset both 3. *)
Definition m_idle : machine := Machine buf8 3 3.

(** The handler after its two reads: [s] is [start], [e] the sampled
    offset. *)
Definition handler_body (N s e : Z) : M unit :=
  if negb (s =? e) then
    bind (if s <? e then
            uart_transmit N s (to_uint32 (e - s))
          else
            bind (uart_transmit N s (to_uint32 (N - s)))
                 (fun _ => uart_transmit N 0 e))
         (fun _ => set_start e)
  else ret tt.

(** A computation that neither stores to the array nor moves the DMA
    counter. *)
Definition keeps_memory {A : Type} (c : M A) : Prop :=
  forall m a m' t,
    c m = Some (a, m', t) ->
    ring_buffer m' = ring_buffer m /\ dma_transferred m' = dma_transferred m.

(** ** The timer periods and the banner of [main]

    After [main] has enabled the DMA channel and configured SysTick, the
    system alternates between DMA activity and a call of
    [SysTick_Handler], once per period. *)

(** One period: the DMA stores the burst [ws], then SysTick fires. *)
Definition period (N : Z) (ws : list byte) : M unit :=
  fun m => SysTick_Handler N (dma_write_all N ws m).

(** One period per burst, in order. *)
Fixpoint periods (N : Z) (bursts : list (list byte)) : M unit :=
  match bursts with
  | [] => ret tt
  | ws :: rest =>
      _ <- period N ws ;;
      periods N rest
  end.

(** [sizeof(arr)] for an array of [char]. *)
Definition sizeof (arr : list byte) : Z := Z.of_nat (length arr).

(** [*data] where [data] points [off] bytes after the first element of the
    constant array [arr]. Reading outside the array is a fault. *)
Definition deref_const (arr : list byte) (off : Z) : M byte :=
  fun m =>
    if bool_decide (0 <= off < sizeof arr) then
      match arr !! Z.to_nat off with
      | Some b => Some (b, m, [])
      | None => None
      end
    else None.

(** The loop of [uart_transmit] when [data] points into [arr]. *)
Fixpoint uart_transmit_const_loop (arr : list byte) (n : nat) (data : Z)
    : M unit :=
  match n with
  | O => ret tt
  | S n' =>
      b <- deref_const arr data ;;
      _ <- XMC_UART_CH_Transmit b ;;
      uart_transmit_const_loop arr n' (data + 1)
  end.

(** [uart_transmit(channel, (const uint8_t * )arr + data, len)] *)
Definition uart_transmit_const (arr : list byte) (data len : Z) : M unit :=
  uart_transmit_const_loop arr (Z.to_nat len) data.

(** The characters of a string literal, and the array a literal
    initialises: its characters and the terminating NUL. *)
Definition chars (s : string) : list byte := String.list_byte_of_string s.

Definition CRLF : list byte := [x0d; x0a].

Definition literal (cs : list byte) : list byte := cs ++ [x00].

(** [const char DELIMITER_STR[]] *)
Definition DELIMITER_STR : list byte :=
  literal (chars "************************************************" ++ CRLF).

(** [const char APP_NAME[]] *)
Definition APP_NAME : list byte :=
  literal (chars " DMA Ring buffer example" ++ CRLF).

(** [const char APP_HELP1[]] *)
Definition APP_HELP1 : list byte :=
  literal (chars "This example receives data from UART-RX." ++ CRLF ++
           chars "Data is routed through a DMA ring buffer read by CPU." ++ CRLF ++
           chars "Finally the data is sent as echo to UART-TX." ++ CRLF).

(** [const char APP_HELP2[]] *)
Definition APP_HELP2 : list byte :=
  literal (chars "Just start typing. What you type will be echoed below:" ++ CRLF).

(** The welcome message of [main] ([ENABLE_XMC_DEBUG_PRINT] is 0): the
    five calls of [uart_transmit] between the board initialisation and
    [XMC_DMA_CH_Enable]. *)
Definition main_banner : M unit :=
  _ <- uart_transmit_const DELIMITER_STR 0 (to_uint32 (sizeof DELIMITER_STR)) ;;
  _ <- uart_transmit_const APP_NAME 0 (to_uint32 (sizeof APP_NAME)) ;;
  _ <- uart_transmit_const DELIMITER_STR 0 (to_uint32 (sizeof DELIMITER_STR)) ;;
  _ <- uart_transmit_const APP_HELP1 0 (to_uint32 (sizeof APP_HELP1)) ;;
  uart_transmit_const APP_HELP2 0 (to_uint32 (sizeof APP_HELP2)).

(** ** Traces *)

Lemma tx_bytes_app (t1 t2 : list event) :
  tx_bytes (t1 ++ t2) = tx_bytes t1 ++ tx_bytes t2.
Proof. apply omap_app. Qed.

Lemma load_offsets_app (t1 t2 : list event) :
  load_offsets (t1 ++ t2) = load_offsets t1 ++ load_offsets t2.
Proof. apply omap_app. Qed.

Lemma span_calls_app (t1 t2 : list event) :
  span_calls (t1 ++ t2) = span_calls t1 ++ span_calls t2.
Proof. apply omap_app. Qed.

(** Every byte on the wire was read from the array first. *)
Lemma tx_bytes_length_loads_loop (N : Z) (n : nat) :
  forall data m m' t,
    uart_transmit_loop N n data m = Some (tt, m', t) ->
    length (tx_bytes t) = n /\ length (load_offsets t) = n.
Proof.
  induction n as [|n IH]; intros data m m' t H; simpl in H.
  - unfold ret in H. by simplify_eq.
  - unfold bind, deref, XMC_UART_CH_Transmit, emit in H.
    destruct (bool_decide (0 <= data < N)); [|done].
    destruct (ring_buffer m !! Z.to_nat data) as [b|]; [|done].
    destruct (uart_transmit_loop N n (data + 1) m) as [[[[] m2] t2]|] eqn:E;
      [|done].
    simplify_eq. destruct (IH _ _ _ _ E) as [H1 H2].
    rewrite !tx_bytes_app, !load_offsets_app, !length_app, H1, H2. done.
Qed.

(** ** The transmit loop inside the array *)

Lemma uart_transmit_loop_in_bounds (N : Z) (n : nat) :
  forall data m,
    0 <= data -> data + Z.of_nat n <= N ->
    Z.of_nat (length (ring_buffer m)) = N ->
    exists t,
      uart_transmit_loop N n data m = Some (tt, m, t) /\
      tx_bytes t = take n (drop (Z.to_nat data) (ring_buffer m)) /\
      load_offsets t = seqZ data (Z.of_nat n) /\
      span_calls t = [].
Proof.
  induction n as [|n IH]; intros data m Hd Hn Hlen.
  - exists []. simpl. rewrite seqZ_nil by lia. by rewrite take_0.
  - destruct (IH (data + 1) m) as (t & Ht & Htx & Hld & Hsp); [lia..|].
    assert (Hin : (Z.to_nat data < length (ring_buffer m))%nat) by lia.
    destruct (lookup_lt_is_Some_2 _ _ Hin) as [b Hb].
    exists ([EvLoad data] ++ [EvTx b] ++ t).
    split; [|split; [|split]].
    + simpl. unfold bind at 1. unfold deref.
      rewrite bool_decide_eq_true_2 by lia. rewrite Hb.
      unfold bind, XMC_UART_CH_Transmit, emit. by rewrite Ht.
    + rewrite !tx_bytes_app, Htx. simpl.
      rewrite (drop_S _ b _ Hb). simpl.
      by replace (Z.to_nat (data + 1)) with (S (Z.to_nat data)) by lia.
    + rewrite !load_offsets_app, Hld. simpl.
      rewrite (seqZ_cons data) by lia.
      f_equal. f_equal; lia.
    + by rewrite !span_calls_app, Hsp.
Qed.

Lemma uart_transmit_in_bounds (N data len : Z) (m : machine) :
  0 <= data -> 0 <= len -> data + len <= N ->
  Z.of_nat (length (ring_buffer m)) = N ->
  exists t,
    uart_transmit N data len m = Some (tt, m, t) /\
    tx_bytes t = slice (ring_buffer m) data (data + len) /\
    load_offsets t = seqZ data len /\
    span_calls t = [(data, len)].
Proof.
  intros Hd Hl Hn Hlen.
  destruct (uart_transmit_loop_in_bounds N (Z.to_nat len) data m)
    as (t & Ht & Htx & Hld & Hsp); [lia..|].
  exists (EvSpan data len :: t). unfold uart_transmit, bind, emit.
  rewrite Ht. split; [done|]. unfold slice.
  replace (data + len - data) with len by lia.
  rewrite Z2Nat.id in Hld by lia.
  split; [|split].
  - exact Htx.
  - exact Hld.
  - change (span_calls (EvSpan data len :: t)) with ((data, len) :: span_calls t).
    by rewrite Hsp.
Qed.

(** ** The three branches of the handler *)

Lemma SysTick_Handler_unfold (N : Z) (m : machine) :
  SysTick_Handler N m =
  handler_body N (start m) (to_uint32 (dma_transferred m)) m.
Proof.
  unfold SysTick_Handler, bind at 1, get_start.
  unfold bind at 1, XMC_DMA_CH_GetTransferredData.
  fold (handler_body N (start m) (to_uint32 (dma_transferred m))).
  by destruct (handler_body _ _ _ m) as [[[[] m'] t]|].
Qed.

Lemma to_uint32_small (z : Z) : 0 <= z < 2 ^ 32 -> to_uint32 z = z.
Proof. intros H. unfold to_uint32. by rewrite Z.mod_small. Qed.

Lemma SysTick_Handler_idle (N : Z) (m : machine) :
  start m = to_uint32 (dma_transferred m) ->
  SysTick_Handler N m = Some (tt, m, []).
Proof.
  intros H. rewrite SysTick_Handler_unfold, <- H. unfold handler_body.
  by rewrite Z.eqb_refl.
Qed.

Lemma SysTick_Handler_linear (N : Z) (m : machine) :
  wf N m -> start m < dma_transferred m ->
  exists t,
    SysTick_Handler N m =
      Some (tt, Machine (ring_buffer m) (dma_transferred m) (dma_transferred m), t) /\
    span_calls t = [(start m, dma_transferred m - start m)] /\
    tx_bytes t = slice (ring_buffer m) (start m) (dma_transferred m) /\
    load_offsets t = seqZ (start m) (dma_transferred m - start m).
Proof.
  intros (HN & Hlen & Hs & He) Hlt.
  destruct (uart_transmit_in_bounds N (start m) (dma_transferred m - start m) m)
    as (t & Ht & Htx & Hld & Hsp); [lia..|].
  exists t. rewrite SysTick_Handler_unfold, to_uint32_small by lia.
  unfold handler_body.
  destruct (Z.eqb_spec (start m) (dma_transferred m)) as [|_]; [lia|].
  destruct (Z.ltb_spec (start m) (dma_transferred m)) as [_|]; [|lia].
  simpl. unfold bind. rewrite to_uint32_small by lia. rewrite Ht.
  unfold set_start. rewrite app_nil_r.
  replace (start m + (dma_transferred m - start m)) with (dma_transferred m)
    in Htx by lia.
  done.
Qed.

Lemma SysTick_Handler_wrapped (N : Z) (m : machine) :
  wf N m -> dma_transferred m < start m ->
  exists t,
    SysTick_Handler N m =
      Some (tt, Machine (ring_buffer m) (dma_transferred m) (dma_transferred m), t) /\
    span_calls t = [(start m, N - start m); (0, dma_transferred m)] /\
    tx_bytes t = slice (ring_buffer m) (start m) N ++
                 slice (ring_buffer m) 0 (dma_transferred m) /\
    load_offsets t = seqZ (start m) (N - start m) ++ seqZ 0 (dma_transferred m).
Proof.
  intros (HN & Hlen & Hs & He) Hlt.
  destruct (uart_transmit_in_bounds N (start m) (N - start m) m)
    as (t1 & Ht1 & Htx1 & Hld1 & Hsp1); [lia..|].
  destruct (uart_transmit_in_bounds N 0 (dma_transferred m) m)
    as (t2 & Ht2 & Htx2 & Hld2 & Hsp2); [lia..|].
  exists (t1 ++ t2). rewrite SysTick_Handler_unfold, to_uint32_small by lia.
  unfold handler_body.
  destruct (Z.eqb_spec (start m) (dma_transferred m)) as [|_]; [lia|].
  destruct (Z.ltb_spec (start m) (dma_transferred m)) as [|_]; [lia|].
  simpl. unfold bind. rewrite to_uint32_small by lia. rewrite Ht1, Ht2.
  unfold set_start. rewrite app_nil_r.
  rewrite span_calls_app, tx_bytes_app, load_offsets_app.
  rewrite Hsp1, Hsp2, Htx1, Htx2, Hld1, Hld2.
  replace (start m + (N - start m)) with N by lia.
  replace (0 + dma_transferred m) with (dma_transferred m) by lia.
  done.
Qed.

(** ** The circular region *)

Lemma circular_region_empty (N s : Z) : circular_region N s s = [].
Proof.
  unfold circular_region. rewrite Z.sub_diag, Zmod_0_l. by rewrite seqZ_nil.
Qed.

Lemma fmap_wrap_seqZ (N s k a n : Z) :
  (forall i, a <= i < a + n -> (s + i) mod N = k + i) ->
  (fun i => (s + i) mod N) <$> seqZ a n = seqZ (k + a) n.
Proof.
  intros H. rewrite <- fmap_add_seqZ. apply Forall_fmap_ext, Forall_seqZ.
  intros i Hi. by apply H.
Qed.

Lemma circular_region_linear (N s e : Z) :
  0 <= s -> s < e -> e < N -> circular_region N s e = seqZ s (e - s).
Proof.
  intros Hs Hlt He. unfold circular_region.
  rewrite (Z.mod_small (e - s)) by lia.
  rewrite (fmap_wrap_seqZ N s s) by (intros; apply Z.mod_small; lia).
  f_equal; lia.
Qed.

Lemma circular_region_wrapped (N s e : Z) :
  0 <= e -> e < s -> s < N ->
  circular_region N s e = seqZ s (N - s) ++ seqZ 0 e.
Proof.
  intros He Hlt Hs. unfold circular_region.
  replace ((e - s) mod N) with ((N - s) + e).
  2:{ apply (Z.mod_unique_pos _ _ (-1)); lia. }
  rewrite seqZ_app, fmap_app by lia.
  rewrite (fmap_wrap_seqZ N s s) by (intros; apply Z.mod_small; lia).
  rewrite (fmap_wrap_seqZ N s (s - N)).
  2:{ intros i Hi. symmetry. apply (Z.mod_unique_pos _ _ 1); lia. }
  f_equal; f_equal; lia.
Qed.

Lemma NoDup_circular_region (N s e : Z) :
  0 <= s < N -> 0 <= e < N -> NoDup (circular_region N s e).
Proof.
  intros Hs He.
  destruct (Z.lt_trichotomy s e) as [H|[->|H]].
  - rewrite circular_region_linear by lia. apply NoDup_seqZ.
  - rewrite circular_region_empty. constructor.
  - rewrite circular_region_wrapped by lia.
    apply NoDup_app. split; [apply NoDup_seqZ|]. split; [|apply NoDup_seqZ].
    intros x Hx1 Hx2. apply elem_of_seqZ in Hx1, Hx2. lia.
Qed.

Lemma Forall_circular_region_in_bounds (N s e : Z) :
  0 < N -> Forall (fun o => 0 <= o < N) (circular_region N s e).
Proof.
  intros HN. unfold circular_region. apply Forall_fmap, Forall_forall.
  intros i _. simpl. apply Z.mod_pos_bound. lia.
Qed.

(** Reading the array along consecutive offsets gives a slice. *)
Lemma lookup_seqZ_slice (buf : list byte) (lo hi : Z) :
  0 <= lo -> lo <= hi -> hi <= Z.of_nat (length buf) ->
  (fun o => buf !! Z.to_nat o) <$> seqZ lo (hi - lo) = Some <$> slice buf lo hi.
Proof.
  intros Hlo Hle Hhi. apply list_eq. intros i.
  rewrite !list_lookup_fmap. unfold slice.
  destruct (decide (Z.of_nat i < hi - lo)) as [Hi|Hi].
  - rewrite lookup_seqZ_lt by lia. rewrite lookup_take_lt by lia.
    rewrite lookup_drop. simpl.
    replace (Z.to_nat (lo + Z.of_nat i)) with (Z.to_nat lo + i)%nat by lia.
    destruct (lookup_lt_is_Some_2 buf (Z.to_nat lo + i)) as [b ->]; [lia|done].
  - rewrite lookup_seqZ_ge by lia. rewrite lookup_take_ge by lia. done.
Qed.

(** ** One tick, whatever the branch *)

Lemma SysTick_Handler_region (N : Z) (m : machine) :
  wf N m ->
  exists t,
    SysTick_Handler N m =
      Some (tt, Machine (ring_buffer m) (dma_transferred m) (dma_transferred m), t) /\
    load_offsets t = circular_region N (start m) (dma_transferred m) /\
    Some <$> tx_bytes t =
      (fun o => ring_buffer m !! Z.to_nat o) <$>
        circular_region N (start m) (dma_transferred m) /\
    (length (span_calls t) <= 2)%nat /\
    mbind (fun '(o, l) => seqZ o l) (span_calls t) =
      circular_region N (start m) (dma_transferred m).
Proof.
  intros Hwf. pose proof Hwf as (HN & Hlen & Hs & He).
  destruct (Z.lt_trichotomy (start m) (dma_transferred m)) as [H|[H|H]].
  - destruct (SysTick_Handler_linear N m Hwf H) as (t & Ht & Hsp & Htx & Hld).
    exists t. rewrite circular_region_linear by lia.
    rewrite Hsp, Htx, Hld, lookup_seqZ_slice by lia.
    repeat split; try done. simpl. lia. simpl. by rewrite app_nil_r.
  - exists []. rewrite SysTick_Handler_idle by (rewrite to_uint32_small; lia).
    rewrite H, circular_region_empty. destruct m as [buf s e]. simpl in *.
    subst s. repeat split; try done. simpl. lia.
  - destruct (SysTick_Handler_wrapped N m Hwf H) as (t & Ht & Hsp & Htx & Hld).
    exists t. rewrite circular_region_wrapped by lia.
    rewrite Hsp, Htx, Hld, !fmap_app.
    rewrite <- (lookup_seqZ_slice _ 0 (dma_transferred m)) by lia.
    rewrite <- lookup_seqZ_slice by lia. rewrite Z.sub_0_r.
    repeat split; try done. simpl. by rewrite app_nil_r.
Qed.

(** ** The producer *)

Lemma dma_write_all_snoc (N : Z) (ws : list byte) (b : byte) (m : machine) :
  dma_write_all N (ws ++ [b]) m = dma_write N (dma_write_all N ws m) b.
Proof. unfold dma_write_all. by rewrite foldl_app. Qed.

Lemma dma_write_all_start (N : Z) (ws : list byte) (m : machine) :
  start (dma_write_all N ws m) = start m.
Proof.
  induction ws as [|b ws IH] using rev_ind; [done|].
  by rewrite dma_write_all_snoc.
Qed.

Lemma dma_write_all_length (N : Z) (ws : list byte) (m : machine) :
  length (ring_buffer (dma_write_all N ws m)) = length (ring_buffer m).
Proof.
  induction ws as [|b ws IH] using rev_ind; [done|].
  rewrite dma_write_all_snoc. simpl. by rewrite length_insert.
Qed.

Lemma dma_write_all_offset (N : Z) (ws : list byte) (m : machine) :
  0 < N -> 0 <= dma_transferred m < N ->
  dma_transferred (dma_write_all N ws m) =
    (dma_transferred m + Z.of_nat (length ws)) mod N.
Proof.
  intros HN Hw. induction ws as [|b ws IH] using rev_ind.
  - simpl. rewrite Z.add_0_r. by rewrite Z.mod_small.
  - rewrite dma_write_all_snoc. simpl. rewrite IH, length_app. simpl.
    rewrite Zplus_mod_idemp_l. f_equal. lia.
Qed.

Lemma dma_write_all_wf (N : Z) (ws : list byte) (m : machine) :
  wf N m -> wf N (dma_write_all N ws m).
Proof.
  intros (HN & Hlen & Hs & He). unfold wf.
  rewrite dma_write_all_start, dma_write_all_length, dma_write_all_offset by lia.
  repeat split; try lia; apply Z.mod_pos_bound; lia.
Qed.

(** Two offsets less than one lap apart do not collide. *)
Lemma wrap_offsets_distinct (N w i j : Z) :
  0 < N -> 0 <= i < j -> j < N -> (w + i) mod N <> (w + j) mod N.
Proof.
  intros HN Hi Hj Heq.
  assert (H : (j - i) mod N = 0).
  { replace (j - i) with ((w + j) - (w + i)) by lia.
    rewrite Zminus_mod, Heq, Z.sub_diag. by rewrite Zmod_0_l. }
  rewrite Z.mod_small in H by lia. lia.
Qed.

(** A burst of at most one lap is found in the array, byte [i] of the
    burst at the [i]-th offset after the old write offset. *)
Lemma dma_write_all_lookup (N : Z) (ws : list byte) (m : machine) :
  wf N m -> Z.of_nat (length ws) <= N ->
  forall (i : nat) (b : byte),
    ws !! i = Some b ->
    ring_buffer (dma_write_all N ws m)
      !! Z.to_nat ((dma_transferred m + Z.of_nat i) mod N) = Some b.
Proof.
  intros Hwf. pose proof Hwf as (HN & Hlen & Hs & He).
  induction ws as [|c ws IH] using rev_ind; intros HL i b Hi; [done|].
  rewrite length_app in HL. simpl in HL.
  rewrite dma_write_all_snoc. simpl.
  rewrite dma_write_all_offset by lia.
  pose proof (Z.mod_pos_bound (dma_transferred m + Z.of_nat i) N ltac:(lia)).
  pose proof (Z.mod_pos_bound (dma_transferred m + Z.of_nat (length ws)) N
                ltac:(lia)).
  destruct (decide (i < length ws)%nat) as [Hlt|Hge].
  - rewrite lookup_app_l in Hi by done.
    rewrite list_lookup_insert_ne; [apply IH; [lia|done]|].
    intros Heq. apply Z2Nat.inj in Heq; [|lia..].
    symmetry in Heq. revert Heq. apply wrap_offsets_distinct; lia.
  - apply lookup_lt_Some in Hi as Hi'. rewrite length_app in Hi'. simpl in Hi'.
    assert (i = length ws) as -> by lia.
    rewrite list_lookup_middle in Hi by done. simplify_eq.
    apply list_lookup_insert_eq. rewrite dma_write_all_length. lia.
Qed.

(** Read back along the region, a burst shorter than a lap is intact. *)
Lemma dma_write_all_region (N : Z) (ws : list byte) (m : machine) :
  wf N m -> Z.of_nat (length ws) < N ->
  (fun o => ring_buffer (dma_write_all N ws m) !! Z.to_nat o) <$>
    circular_region N (dma_transferred m)
      (dma_transferred (dma_write_all N ws m)) = Some <$> ws.
Proof.
  intros Hwf HL. pose proof Hwf as (HN & Hlen & Hs & He).
  rewrite dma_write_all_offset by lia. unfold circular_region.
  rewrite Zminus_mod_idemp_l.
  replace (dma_transferred m + Z.of_nat (length ws) - dma_transferred m)
    with (Z.of_nat (length ws)) by lia.
  rewrite Z.mod_small by lia.
  apply list_eq. intros i. rewrite !list_lookup_fmap.
  destruct (ws !! i) as [b|] eqn:Hi.
  - apply lookup_lt_Some in Hi as Hi'.
    rewrite lookup_seqZ_lt by lia. simpl. rewrite Z.add_0_l.
    f_equal. apply dma_write_all_lookup; [done|lia|done].
  - apply lookup_ge_None in Hi. by rewrite lookup_seqZ_ge by lia.
Qed.

(** ** What the handler leaves alone *)

Lemma keeps_memory_bind {A B : Type} (c : M A) (k : A -> M B) :
  keeps_memory c -> (forall a, keeps_memory (k a)) -> keeps_memory (bind c k).
Proof.
  intros Hc Hk m b m' t H. unfold bind in H.
  destruct (c m) as [[[a m1] t1]|] eqn:E1; [|done].
  destruct (k a m1) as [[[b' m2] t2]|] eqn:E2; [|done].
  simplify_eq. destruct (Hc _ _ _ _ E1) as [<- <-]. exact (Hk _ _ _ _ _ E2).
Qed.

Lemma keeps_memory_ret {A : Type} (a : A) : keeps_memory (ret a).
Proof. intros m b m' t H. unfold ret in H. by simplify_eq. Qed.

Lemma keeps_memory_emit (e : event) : keeps_memory (emit e).
Proof. intros m b m' t H. unfold emit in H. by simplify_eq. Qed.

Lemma keeps_memory_deref (N off : Z) : keeps_memory (deref N off).
Proof.
  intros m b m' t H. unfold deref in H.
  destruct (bool_decide (0 <= off < N)); [|done].
  destruct (ring_buffer m !! Z.to_nat off); [|done]. by simplify_eq.
Qed.

Lemma keeps_memory_set_start (v : Z) : keeps_memory (set_start v).
Proof. intros m b m' t H. unfold set_start in H. by simplify_eq. Qed.

Lemma keeps_memory_loop (N : Z) (n : nat) :
  forall data, keeps_memory (uart_transmit_loop N n data).
Proof.
  induction n as [|n IH]; intros data; simpl.
  - apply keeps_memory_ret.
  - apply keeps_memory_bind; [apply keeps_memory_deref|]. intros b.
    apply keeps_memory_bind; [apply keeps_memory_emit|]. intros _. apply IH.
Qed.

Lemma keeps_memory_uart_transmit (N data len : Z) :
  keeps_memory (uart_transmit N data len).
Proof.
  apply keeps_memory_bind; [apply keeps_memory_emit|]. intros _.
  apply keeps_memory_loop.
Qed.

Lemma keeps_memory_SysTick_Handler (N : Z) : keeps_memory (SysTick_Handler N).
Proof.
  apply keeps_memory_bind.
  { intros m b m' t H. unfold get_start in H. by simplify_eq. }
  intros s. apply keeps_memory_bind.
  { intros m b m' t H. unfold XMC_DMA_CH_GetTransferredData in H.
    by simplify_eq. }
  intros e. destruct (negb (s =? e)); [|apply keeps_memory_ret].
  apply keeps_memory_bind; [|intros _; apply keeps_memory_set_start].
  destruct (s <? e); [apply keeps_memory_uart_transmit|].
  apply keeps_memory_bind; [apply keeps_memory_uart_transmit|].
  intros _. apply keeps_memory_uart_transmit.
Qed.

(** ** Reachable states *)

Lemma reset_machine_wf (N : Z) : 0 < N < 2 ^ 32 -> wf N (reset_machine N).
Proof.
  intros HN. unfold wf, reset_machine. simpl. rewrite length_replicate. lia.
Qed.

Lemma SysTick_Handler_wf (N : Z) (m m' : machine) (t : list event) :
  wf N m -> SysTick_Handler N m = Some (tt, m', t) -> wf N m'.
Proof.
  intros Hwf H. destruct (SysTick_Handler_region N m Hwf) as (t' & Ht & _).
  rewrite Ht in H. simplify_eq. destruct Hwf as (HN & Hlen & Hs & He).
  unfold wf. simpl. lia.
Qed.

Lemma reachable_wf (N : Z) (m : machine) :
  0 < N < 2 ^ 32 -> reachable N m -> wf N m.
Proof.
  intros HN Hr. induction Hr as [|m m' Hr IH (Hs & Hl & He)|m m' t Hr IH Ht].
  - by apply reset_machine_wf.
  - destruct IH as (_ & Hlen & Hst & _). unfold wf. rewrite Hs, Hl. done.
  - by eapply SysTick_Handler_wf.
Qed.

(** Every well-formed state is one the system can be in. *)
Lemma wf_reachable (N : Z) (m : machine) : wf N m -> reachable N m.
Proof.
  intros (HN & Hlen & Hs & He). destruct m as [buf s e]. simpl in *.
  assert (Hw1 : wf N (Machine buf 0 s)) by (unfold wf; simpl; lia).
  destruct (SysTick_Handler_region N _ Hw1) as (t & Ht & _). simpl in Ht.
  apply (reach_env N (Machine buf s s)).
  - apply (reach_tick N (Machine buf 0 s) _ t); [|exact Ht].
    apply (reach_env N (reset_machine N)); [constructor|].
    unfold env_step, reset_machine. simpl. rewrite length_replicate.
    repeat split; lia.
  - unfold env_step. simpl. repeat split; lia.
Qed.

(** ** Sample runs *)

Example linear_run :
  SysTick_Handler 8 m_linear =
    Some (tt, Machine buf8 6 6,
          [EvSpan 2 4; EvLoad 2; EvTx x63; EvLoad 3; EvTx x64;
           EvLoad 4; EvTx x65; EvLoad 5; EvTx x66]).
Proof. reflexivity. Qed.

Example wrapped_run :
  SysTick_Handler 8 m_wrapped =
    Some (tt, Machine buf8 2 2,
          [EvSpan 6 2; EvLoad 6; EvTx x67; EvLoad 7; EvTx x68;
           EvSpan 0 2; EvLoad 0; EvTx x61; EvLoad 1; EvTx x62]).
Proof. reflexivity. Qed.

Example wrap_to_zero_run :
  SysTick_Handler 8 m_wrap_to_zero =
    Some (tt, Machine buf8 0 0,
          [EvSpan 6 2; EvLoad 6; EvTx x67; EvLoad 7; EvTx x68; EvSpan 0 0]).
Proof. reflexivity. Qed.

Example idle_run : SysTick_Handler 8 m_idle = Some (tt, m_idle, []).
Proof. reflexivity. Qed.

(** A sampled offset beyond the array makes the handler read outside it. *)
Example out_of_range_run : SysTick_Handler 8 (Machine buf8 3 9) = None.
Proof. reflexivity. Qed.

(** Twenty bytes into a buffer of sixteen before the first drain: the
    handler sees only the last four. *)
Example overflow_run :
  exists m',
    SysTick_Handler 16 (dma_write_all 16 (replicate 20 x41) (reset_machine 16)) =
      Some (tt, m',
            [EvSpan 0 4; EvLoad 0; EvTx x41; EvLoad 1; EvTx x41;
             EvLoad 2; EvTx x41; EvLoad 3; EvTx x41]).
Proof. eexists. reflexivity. Qed.

(** ** Properties of the drain *)

(** C1 (amended). For a start offset and a sampled write offset inside the
    buffer, one run of the handler reads exactly the offsets of the
    circular half-open region from [start] to the sampled offset, each
    offset once, transmits the bytes found there in that order, and does so
    in at most two spans that laid end to end are the region. When the
    producer stored a burst of FEWER than [N] bytes since the previous
    drain, the bytes transmitted are exactly that burst, in the order
    written. *)
Theorem drain_emits_unread_region (N : Z) (m : machine) :
  wf N m ->
  (exists m' t,
     SysTick_Handler N m = Some (tt, m', t) /\
     load_offsets t = circular_region N (start m) (dma_transferred m) /\
     Some <$> tx_bytes t =
       (fun o => ring_buffer m !! Z.to_nat o) <$>
         circular_region N (start m) (dma_transferred m) /\
     NoDup (load_offsets t) /\
     (length (span_calls t) <= 2)%nat /\
     mbind (fun '(o, l) => seqZ o l) (span_calls t) =
       circular_region N (start m) (dma_transferred m)) /\
  (forall ws : list byte,
     start m = dma_transferred m ->
     Z.of_nat (length ws) < N ->
     exists m' t,
       SysTick_Handler N (dma_write_all N ws m) = Some (tt, m', t) /\
       tx_bytes t = ws /\
       length (tx_bytes t) = length ws /\
       (length (span_calls t) <= 2)%nat).
Proof.
  intros Hwf. split.
  - destruct (SysTick_Handler_region N m Hwf) as (t & Ht & Hld & Htx & Hn & Hsp).
    eexists. exists t. repeat split; try done.
    rewrite Hld. destruct Hwf as (? & ? & ? & ?).
    by apply NoDup_circular_region.
  - intros ws Hse HL.
    destruct (SysTick_Handler_region N _ (dma_write_all_wf N ws m Hwf))
      as (t & Ht & _ & Htx & Hn & _).
    rewrite dma_write_all_start, Hse, dma_write_all_region in Htx by done.
    apply (inj (fmap Some)) in Htx. eexists. exists t. by rewrite Htx in *.
Qed.

(** C1 as stated fails for a burst of exactly [N] bytes: with the shipped
    capacity, 4096 bytes stored after reset bring the write offset back to
    [start], and the handler transmits none of them. *)
Lemma full_lap_burst_not_emitted :
  let ws := replicate (Z.to_nat RING_BUFFER_SIZE) x41 in
  let m := reset_machine RING_BUFFER_SIZE in
  wf RING_BUFFER_SIZE m /\
  start m = dma_transferred m /\
  Z.of_nat (length ws) <= RING_BUFFER_SIZE /\
  exists m' t,
    SysTick_Handler RING_BUFFER_SIZE (dma_write_all RING_BUFFER_SIZE ws m) =
      Some (tt, m', t) /\
    length (tx_bytes t) <> length ws.
Proof.
  intros ws m. split; [|split; [|split]].
  - apply reset_machine_wf. unfold RING_BUFFER_SIZE. lia.
  - reflexivity.
  - subst ws. rewrite length_replicate. unfold RING_BUFFER_SIZE. lia.
  - exists (dma_write_all RING_BUFFER_SIZE ws m), []. split.
    + vm_compute. reflexivity.
    + subst ws. rewrite length_replicate. simpl. unfold RING_BUFFER_SIZE. lia.
Qed.

(** C2. When [start] is below the sampled offset, the handler makes one
    call of [uart_transmit], for the span of offsets [start, end), and
    transmits the [end - start] bytes stored there. *)
Theorem linear_drain_single_span (N : Z) (m : machine) :
  wf N m -> start m < dma_transferred m ->
  exists m' t,
    SysTick_Handler N m = Some (tt, m', t) /\
    span_calls t = [(start m, dma_transferred m - start m)] /\
    load_offsets t = seqZ (start m) (dma_transferred m - start m) /\
    tx_bytes t = slice (ring_buffer m) (start m) (dma_transferred m) /\
    Z.of_nat (length (tx_bytes t)) = dma_transferred m - start m.
Proof.
  intros Hwf Hlt.
  destruct (SysTick_Handler_linear N m Hwf Hlt) as (t & Ht & Hsp & Htx & Hld).
  eexists. exists t. repeat split; try done.
  destruct Hwf as (HN & Hlen & Hs & He).
  rewrite Htx. unfold slice. rewrite length_take, length_drop. lia.
Qed.

(** C3. When [start] is above the sampled offset, the handler makes two
    calls of [uart_transmit], first for the offsets [start, N), then for
    the offsets [0, end), and transmits the bytes in that order. *)
Theorem wrapped_drain_two_spans (N : Z) (m : machine) :
  wf N m -> dma_transferred m < start m ->
  exists m' t,
    SysTick_Handler N m = Some (tt, m', t) /\
    span_calls t = [(start m, N - start m); (0, dma_transferred m)] /\
    load_offsets t =
      seqZ (start m) (N - start m) ++ seqZ 0 (dma_transferred m) /\
    tx_bytes t =
      slice (ring_buffer m) (start m) N ++
      slice (ring_buffer m) 0 (dma_transferred m) /\
    Z.of_nat (length (tx_bytes t)) = N - start m + dma_transferred m.
Proof.
  intros Hwf Hlt.
  destruct (SysTick_Handler_wrapped N m Hwf Hlt) as (t & Ht & Hsp & Htx & Hld).
  eexists. exists t. repeat split; try done.
  destruct Hwf as (HN & Hlen & Hs & He).
  rewrite Htx. unfold slice.
  rewrite length_app, !length_take, !length_drop. lia.
Qed.

(** C4. When the sampled offset equals [start], the handler returns the
    machine as it found it and produces no event: no call of
    [uart_transmit], no byte transmitted, [start] unchanged. *)
Theorem idle_drain_is_noop (N : Z) (m : machine) :
  start m = to_uint32 (dma_transferred m) ->
  exists m' t,
    SysTick_Handler N m = Some (tt, m', t) /\
    m' = m /\ t = [] /\
    tx_bytes t = [] /\ span_calls t = [] /\ start m' = start m.
Proof.
  intros H. exists m, []. by rewrite SysTick_Handler_idle.
Qed.

(** C5. In every state the system reaches with sampled offsets inside the
    buffer, [start] is inside the buffer, the handler returns, and after
    it, whichever branch ran, [start] is the offset that was sampled, so
    it is inside the buffer again. *)
Theorem start_follows_sampled_end (N : Z) (m : machine) :
  0 < N < 2 ^ 32 -> reachable N m ->
  0 <= start m < N /\
  exists m' t,
    SysTick_Handler N m = Some (tt, m', t) /\
    start m' = dma_transferred m /\
    0 <= start m' < N.
Proof.
  intros HN Hr. pose proof (reachable_wf N m HN Hr) as Hwf.
  destruct (SysTick_Handler_region N m Hwf) as (t & Ht & _).
  destruct Hwf as (_ & _ & Hs & He). split; [done|].
  eexists. exists t. split; [exact Ht|]. simpl. done.
Qed.

(** C6. The first run of the handler advances [start] to the sampled
    offset; because of that, a second run on the same sampled offset
    returns the machine unchanged and produces no event: no call of
    [uart_transmit], no read of the array, no byte transmitted. *)
Theorem repeated_tick_emits_nothing (N : Z) (m : machine) :
  wf N m ->
  exists m1 t1,
    SysTick_Handler N m = Some (tt, m1, t1) /\
    start m1 = dma_transferred m /\
    dma_transferred m1 = dma_transferred m /\
    exists t2,
      SysTick_Handler N m1 = Some (tt, m1, t2) /\
      t2 = [] /\
      tx_bytes t2 = [] /\ load_offsets t2 = [] /\ span_calls t2 = [].
Proof.
  intros Hwf. destruct (SysTick_Handler_region N m Hwf) as (t & Ht & _).
  eexists. exists t. split; [exact Ht|]. split; [done|]. split; [done|].
  exists []. split; [|done].
  apply SysTick_Handler_idle. simpl. destruct Hwf as (HN & _ & _ & He).
  by rewrite to_uint32_small by lia.
Qed.

(** C7. After a burst of exactly [N] bytes stored since the previous
    drain, the write offset is back at [start] and the handler returns the
    machine unchanged with no event, exactly as it does when nothing was
    stored: none of the [N] bytes is transmitted. *)
Theorem full_lap_is_silent (N : Z) (m : machine) (ws : list byte) :
  wf N m -> start m = dma_transferred m -> Z.of_nat (length ws) = N ->
  dma_transferred (dma_write_all N ws m) = start (dma_write_all N ws m) /\
  SysTick_Handler N (dma_write_all N ws m) =
    Some (tt, dma_write_all N ws m, []) /\
  SysTick_Handler N m = Some (tt, m, []).
Proof.
  intros (HN & Hlen & Hs & He) Hse HL.
  assert (Hoff : dma_transferred (dma_write_all N ws m) = dma_transferred m).
  { rewrite dma_write_all_offset by lia. rewrite HL.
    rewrite <- (Z.mul_1_l N) at 1. rewrite Z.mod_add by lia.
    by rewrite Z.mod_small. }
  split; [|split].
  - by rewrite Hoff, dma_write_all_start.
  - apply SysTick_Handler_idle.
    rewrite Hoff, dma_write_all_start, to_uint32_small by lia. done.
  - apply SysTick_Handler_idle. by rewrite to_uint32_small by lia.
Qed.

(** C8. From a state with both offsets inside the buffer, and after a
    burst of any length, longer than [N] included, the handler returns
    without a fault, every offset it reads and every span it passes to
    [uart_transmit] lies inside [0, N), and it transmits at most [N]
    bytes. *)
Theorem drain_stays_in_bounds (N : Z) (m : machine) (ws : list byte) :
  wf N m ->
  exists m' t,
    SysTick_Handler N (dma_write_all N ws m) = Some (tt, m', t) /\
    Forall (fun o => 0 <= o < N) (load_offsets t) /\
    Forall (fun '(o, l) => 0 <= o /\ 0 <= l /\ o + l <= N) (span_calls t) /\
    Z.of_nat (length (tx_bytes t)) <= N.
Proof.
  intros Hwf0. pose proof (dma_write_all_wf N ws m Hwf0) as Hwf.
  set (m1 := dma_write_all N ws m) in *.
  pose proof Hwf as (HN & Hlen & Hs & He).
  destruct (SysTick_Handler_region N m1 Hwf) as (t & Ht & Hld & Htx & _).
  eexists. exists t. split; [exact Ht|]. split; [|split].
  - rewrite Hld. apply Forall_circular_region_in_bounds. lia.
  - destruct (Z.lt_trichotomy (start m1) (dma_transferred m1)) as [H|[H|H]].
    + destruct (SysTick_Handler_linear N m1 Hwf H) as (t' & Ht' & Hsp & _).
      rewrite Ht in Ht'. simplify_eq. rewrite Hsp.
      repeat constructor; lia.
    + rewrite SysTick_Handler_idle in Ht by (rewrite to_uint32_small; lia).
      simplify_eq. constructor.
    + destruct (SysTick_Handler_wrapped N m1 Hwf H) as (t' & Ht' & Hsp & _).
      rewrite Ht in Ht'. simplify_eq. rewrite Hsp.
      repeat constructor; lia.
  - apply (f_equal length) in Htx. rewrite !length_fmap in Htx.
    rewrite Htx. unfold circular_region. rewrite length_fmap, length_seqZ.
    pose proof (Z.mod_pos_bound (dma_transferred m1 - start m1) N). lia.
Qed.

(** C9. Whenever the handler returns, the array holds the bytes it held
    before and the DMA counter has the value it had: the handler only
    assigns [start]. *)
Theorem drain_keeps_store_and_counter
    (N : Z) (m m' : machine) (t : list event) :
  SysTick_Handler N m = Some (tt, m', t) ->
  ring_buffer m' = ring_buffer m /\
  dma_transferred m' = dma_transferred m.
Proof. apply keeps_memory_SysTick_Handler. Qed.

(** C10. [uart_transmit] over [len] bytes inside the array transmits
    exactly those [len] bytes, in index order, and with [len = 0] none.
    So when the write offset wrapped to exactly 0, the second call of the
    wrapped branch transmits nothing and the handler transmits the
    [N - start] bytes at offsets [start, N) only. *)
Theorem wrap_to_zero_second_span_empty (N : Z) (m : machine) :
  wf N m -> 0 < start m -> dma_transferred m = 0 ->
  (forall data, uart_transmit N data 0 m = Some (tt, m, [EvSpan data 0])) /\
  (exists m' t,
     SysTick_Handler N m = Some (tt, m', t) /\
     span_calls t = [(start m, N - start m); (0, 0)] /\
     tx_bytes t = slice (ring_buffer m) (start m) N /\
     Z.of_nat (length (tx_bytes t)) = N - start m) /\
  (forall data len,
     0 <= data -> 0 <= len -> data + len <= N ->
     exists t,
       uart_transmit N data len m = Some (tt, m, t) /\
       Some <$> tx_bytes t =
         (fun o => ring_buffer m !! Z.to_nat o) <$> seqZ data len /\
       Z.of_nat (length (tx_bytes t)) = len) /\
  (forall data len m' t,
     uart_transmit N data len m = Some (tt, m', t) ->
     length (tx_bytes t) = Z.to_nat len).
Proof.
  intros Hwf Hs He. pose proof Hwf as (HN & Hlen & Hs' & _).
  split; [done|]. split; [|split].
  - destruct (SysTick_Handler_wrapped N m Hwf) as (t & Ht & Hsp & Htx & _);
      [lia|].
    rewrite He in Hsp, Htx. unfold slice at 2 in Htx. simpl in Htx.
    rewrite app_nil_r in Htx.
    eexists. exists t. split; [exact Ht|]. split; [done|]. split; [done|].
    rewrite Htx. unfold slice. rewrite length_take, length_drop. lia.
  - intros data len Hd Hl Hn.
    destruct (uart_transmit_in_bounds N data len m)
      as (t & Ht & Htx & _); [lia..|].
    exists t. split; [done|]. rewrite Htx. split.
    + rewrite <- lookup_seqZ_slice by lia. f_equal. f_equal. lia.
    + unfold slice. rewrite length_take, length_drop. lia.
  - intros data len m' t H. unfold uart_transmit, bind, emit in H.
    destruct (uart_transmit_loop N (Z.to_nat len) data m)
      as [[[[] m2] t2]|] eqn:E; [|done].
    simplify_eq. by destruct (tx_bytes_length_loads_loop _ _ _ _ _ _ E).
Qed.

(** ** The properties at sample states *)

Lemma drain_emits_unread_region_witness :
  (wf 8 m_wrapped /\
   exists m' t,
     SysTick_Handler 8 m_wrapped = Some (tt, m', t) /\
     load_offsets t = circular_region 8 6 2 /\
     Some <$> tx_bytes t =
       (fun o => buf8 !! Z.to_nat o) <$> circular_region 8 6 2 /\
     NoDup (load_offsets t) /\
     (length (span_calls t) <= 2)%nat /\
     mbind (fun '(o, l) => seqZ o l) (span_calls t) = circular_region 8 6 2) /\
  (wf 8 m_idle /\ start m_idle = dma_transferred m_idle /\
   Z.of_nat (length [x31; x32; x33; x34; x35; x36; x37]) < 8 /\
   exists m' t,
     SysTick_Handler 8
       (dma_write_all 8 [x31; x32; x33; x34; x35; x36; x37] m_idle) =
       Some (tt, m', t) /\
     tx_bytes t = [x31; x32; x33; x34; x35; x36; x37] /\
     length (tx_bytes t) = 7%nat /\
     (length (span_calls t) <= 2)%nat).
Proof.
  assert (Hw : wf 8 m_wrapped) by (unfold wf; simpl; lia).
  assert (Hi : wf 8 m_idle) by (unfold wf; simpl; lia).
  split.
  - split; [exact Hw|].
    exact (proj1 (drain_emits_unread_region 8 m_wrapped Hw)).
  - split; [exact Hi|]. split; [reflexivity|]. split; [simpl; lia|].
    apply (proj2 (drain_emits_unread_region 8 m_idle Hi)); [reflexivity|].
    simpl; lia.
Defined.

Lemma linear_drain_single_span_witness :
  wf 8 m_linear /\ start m_linear < dma_transferred m_linear /\
  exists m' t,
    SysTick_Handler 8 m_linear = Some (tt, m', t) /\
    span_calls t = [(2, 6 - 2)] /\
    load_offsets t = seqZ 2 (6 - 2) /\
    tx_bytes t = slice buf8 2 6 /\
    Z.of_nat (length (tx_bytes t)) = 6 - 2.
Proof.
  assert (Hw : wf 8 m_linear) by (unfold wf; simpl; lia).
  split; [exact Hw|]. split; [simpl; lia|].
  apply (linear_drain_single_span 8 m_linear Hw). simpl; lia.
Defined.

Lemma wrapped_drain_two_spans_witness :
  wf 8 m_wrapped /\ dma_transferred m_wrapped < start m_wrapped /\
  exists m' t,
    SysTick_Handler 8 m_wrapped = Some (tt, m', t) /\
    span_calls t = [(6, 8 - 6); (0, 2)] /\
    load_offsets t = seqZ 6 (8 - 6) ++ seqZ 0 2 /\
    tx_bytes t = slice buf8 6 8 ++ slice buf8 0 2 /\
    Z.of_nat (length (tx_bytes t)) = 8 - 6 + 2.
Proof.
  assert (Hw : wf 8 m_wrapped) by (unfold wf; simpl; lia).
  split; [exact Hw|]. split; [simpl; lia|].
  apply (wrapped_drain_two_spans 8 m_wrapped Hw). simpl; lia.
Defined.

Lemma idle_drain_is_noop_witness :
  start m_idle = to_uint32 (dma_transferred m_idle) /\
  exists m' t,
    SysTick_Handler 8 m_idle = Some (tt, m', t) /\
    m' = m_idle /\ t = [] /\
    tx_bytes t = [] /\ span_calls t = [] /\ start m' = start m_idle.
Proof.
  split; [reflexivity|]. apply (idle_drain_is_noop 8 m_idle). reflexivity.
Defined.

Lemma start_follows_sampled_end_witness :
  0 < 8 < 2 ^ 32 /\ reachable 8 (Machine (replicate 8 x00) 0 5) /\
  0 <= 0 < 8 /\
  exists m' t,
    SysTick_Handler 8 (Machine (replicate 8 x00) 0 5) = Some (tt, m', t) /\
    start m' = 5 /\
    0 <= start m' < 8.
Proof.
  assert (HN : 0 < 8 < 2 ^ 32) by lia.
  assert (Hr : reachable 8 (Machine (replicate 8 x00) 0 5)).
  { apply (reach_env 8 (reset_machine 8)); [apply reach_reset|].
    unfold env_step. simpl. repeat split; lia. }
  split; [exact HN|]. split; [exact Hr|].
  exact (start_follows_sampled_end 8 _ HN Hr).
Defined.

Lemma repeated_tick_emits_nothing_witness :
  wf 8 m_wrapped /\
  exists m1 t1,
    SysTick_Handler 8 m_wrapped = Some (tt, m1, t1) /\
    start m1 = 2 /\
    dma_transferred m1 = 2 /\
    exists t2,
      SysTick_Handler 8 m1 = Some (tt, m1, t2) /\
      t2 = [] /\
      tx_bytes t2 = [] /\ load_offsets t2 = [] /\ span_calls t2 = [].
Proof.
  assert (Hw : wf 8 m_wrapped) by (unfold wf; simpl; lia).
  split; [exact Hw|]. exact (repeated_tick_emits_nothing 8 m_wrapped Hw).
Defined.

Lemma full_lap_is_silent_witness :
  wf 8 m_idle /\ start m_idle = dma_transferred m_idle /\
  Z.of_nat (length [x31; x32; x33; x34; x35; x36; x37; x38]) = 8 /\
  dma_transferred (dma_write_all 8 [x31; x32; x33; x34; x35; x36; x37; x38] m_idle) =
    start (dma_write_all 8 [x31; x32; x33; x34; x35; x36; x37; x38] m_idle) /\
  SysTick_Handler 8 (dma_write_all 8 [x31; x32; x33; x34; x35; x36; x37; x38] m_idle) =
    Some (tt, dma_write_all 8 [x31; x32; x33; x34; x35; x36; x37; x38] m_idle, []) /\
  SysTick_Handler 8 m_idle = Some (tt, m_idle, []).
Proof.
  assert (Hi : wf 8 m_idle) by (unfold wf; simpl; lia).
  split; [exact Hi|]. split; [reflexivity|]. split; [reflexivity|].
  apply (full_lap_is_silent 8 m_idle _ Hi); reflexivity.
Defined.

Lemma drain_stays_in_bounds_witness :
  wf 16 (reset_machine 16) /\
  exists m' t,
    SysTick_Handler 16 (dma_write_all 16 (replicate 20 x41) (reset_machine 16)) =
      Some (tt, m', t) /\
    Forall (fun o => 0 <= o < 16) (load_offsets t) /\
    Forall (fun '(o, l) => 0 <= o /\ 0 <= l /\ o + l <= 16) (span_calls t) /\
    Z.of_nat (length (tx_bytes t)) <= 16.
Proof.
  assert (Hw : wf 16 (reset_machine 16)) by (unfold wf; simpl; lia).
  split; [exact Hw|]. exact (drain_stays_in_bounds 16 _ (replicate 20 x41) Hw).
Defined.

Lemma drain_keeps_store_and_counter_witness :
  SysTick_Handler 8 m_wrapped =
    Some (tt, Machine buf8 2 2,
          [EvSpan 6 2; EvLoad 6; EvTx x67; EvLoad 7; EvTx x68;
           EvSpan 0 2; EvLoad 0; EvTx x61; EvLoad 1; EvTx x62]) /\
  ring_buffer (Machine buf8 2 2) = ring_buffer m_wrapped /\
  dma_transferred (Machine buf8 2 2) = dma_transferred m_wrapped.
Proof.
  split; [reflexivity|].
  apply (drain_keeps_store_and_counter 8 m_wrapped (Machine buf8 2 2)
           [EvSpan 6 2; EvLoad 6; EvTx x67; EvLoad 7; EvTx x68;
            EvSpan 0 2; EvLoad 0; EvTx x61; EvLoad 1; EvTx x62]).
  reflexivity.
Defined.

Lemma wrap_to_zero_second_span_empty_witness :
  wf 8 m_wrap_to_zero /\ 0 < start m_wrap_to_zero /\
  dma_transferred m_wrap_to_zero = 0 /\
  (forall data,
     uart_transmit 8 data 0 m_wrap_to_zero =
       Some (tt, m_wrap_to_zero, [EvSpan data 0])) /\
  (exists m' t,
     SysTick_Handler 8 m_wrap_to_zero = Some (tt, m', t) /\
     span_calls t = [(6, 8 - 6); (0, 0)] /\
     tx_bytes t = slice buf8 6 8 /\
     Z.of_nat (length (tx_bytes t)) = 8 - 6) /\
  (forall data len,
     0 <= data -> 0 <= len -> data + len <= 8 ->
     exists t,
       uart_transmit 8 data len m_wrap_to_zero = Some (tt, m_wrap_to_zero, t) /\
       Some <$> tx_bytes t = (fun o => buf8 !! Z.to_nat o) <$> seqZ data len /\
       Z.of_nat (length (tx_bytes t)) = len) /\
  (forall data len m' t,
     uart_transmit 8 data len m_wrap_to_zero = Some (tt, m', t) ->
     length (tx_bytes t) = Z.to_nat len).
Proof.
  assert (Hw : wf 8 m_wrap_to_zero) by (unfold wf; simpl; lia).
  split; [exact Hw|]. split; [simpl; lia|]. split; [reflexivity|].
  apply (wrap_to_zero_second_span_empty 8 m_wrap_to_zero Hw);
    [simpl; lia|reflexivity].
Defined.

(** ** When a read leaves the array *)

(** A loop that would run past the end of the array faults. *)
Lemma uart_transmit_loop_past_end (N : Z) (n : nat) :
  forall data m,
    0 <= data -> (0 < n)%nat -> N < data + Z.of_nat n ->
    Z.of_nat (length (ring_buffer m)) = N ->
    uart_transmit_loop N n data m = None.
Proof.
  induction n as [|n IH]; intros data m Hd Hpos Hn Hlen; [lia|].
  simpl. unfold bind at 1. unfold deref.
  destruct (decide (data < N)) as [Hin|Hout].
  - rewrite bool_decide_eq_true_2 by lia.
    destruct (lookup_lt_is_Some_2 (ring_buffer m) (Z.to_nat data)) as [b ->];
      [lia|].
    unfold bind, XMC_UART_CH_Transmit, emit. by rewrite IH by lia.
  - by rewrite bool_decide_eq_false_2 by lia.
Qed.

Lemma uart_transmit_past_end (N data len : Z) (m : machine) :
  0 <= data -> 0 < len -> N < data + len ->
  Z.of_nat (length (ring_buffer m)) = N ->
  uart_transmit N data len m = None.
Proof.
  intros Hd Hl Hn Hlen. unfold uart_transmit, bind, emit.
  by rewrite uart_transmit_loop_past_end by lia.
Qed.

(** X1. [uart_transmit] on the ring buffer returns exactly when it has
    nothing to send or the [len] bytes from [data] on all lie inside the array. *)
Theorem uart_transmit_returns_iff (N data len : Z) (m : machine) :
  Z.of_nat (length (ring_buffer m)) = N -> 0 <= data ->
  is_Some (uart_transmit N data len m) <-> len <= 0 \/ data + len <= N.
Proof.
  intros Hlen Hd. split.
  - intros Hsome. destruct (decide (len <= 0 \/ data + len <= N)) as [|Hn];
      [done|].
    rewrite uart_transmit_past_end in Hsome by lia. by destruct Hsome.
  - intros [Hz|Hin].
    + unfold uart_transmit, bind, emit.
      replace (Z.to_nat len) with 0%nat by lia. simpl. done.
    + destruct (decide (len <= 0)) as [Hz|Hpos].
      * unfold uart_transmit, bind, emit.
        replace (Z.to_nat len) with 0%nat by lia. simpl. done.
      * destruct (uart_transmit_in_bounds N data len m) as (t & -> & _);
          [lia..|done].
Qed.

(** X2. The handler returns exactly when [start] equals the sampled offset or
    neither of them is beyond the end of the array; an offset equal to [N]
    is still harmless. When the handler returns, [start] is the sampled
    offset and nothing else has changed. *)
Theorem SysTick_Handler_returns_iff (N : Z) (m : machine) :
  0 < N < 2 ^ 32 ->
  Z.of_nat (length (ring_buffer m)) = N ->
  0 <= start m < 2 ^ 32 ->
  0 <= dma_transferred m < 2 ^ 32 ->
  (is_Some (SysTick_Handler N m) <->
   start m = dma_transferred m \/ (start m <= N /\ dma_transferred m <= N)) /\
  (forall m' t,
     SysTick_Handler N m = Some (tt, m', t) ->
     m' = Machine (ring_buffer m) (dma_transferred m) (dma_transferred m)).
Proof.
  intros HN Hlen Hs He. rewrite SysTick_Handler_unfold.
  rewrite (to_uint32_small (dma_transferred m)) by lia.
  unfold handler_body.
  destruct (Z.eqb_spec (start m) (dma_transferred m)) as [Heq|Hne]; simpl.
  { split; [split; [by left|done]|].
    intros m' t H. unfold ret in H. assert (m' = m) as -> by congruence.
    destruct m as [buf s e]. simpl in *. by subst s. }
  destruct (Z.ltb_spec (start m) (dma_transferred m)) as [Hlt|Hge].
  - rewrite (to_uint32_small (dma_transferred m - start m)) by lia.
    destruct (decide (dma_transferred m <= N)) as [Hin|Hout].
    + destruct (uart_transmit_in_bounds N (start m)
                  (dma_transferred m - start m) m) as (t1 & Ht1 & _); [lia..|].
      unfold bind. rewrite Ht1. unfold set_start. split.
      * split; [intros _; right; lia|done].
      * intros m' t H. by simplify_eq.
    + unfold bind. rewrite uart_transmit_past_end by lia. split.
      * split; [intros H; by destruct H|lia].
      * done.
  - destruct (decide (start m <= N)) as [Hin|Hout].
    + rewrite (to_uint32_small (N - start m)) by lia.
      destruct (uart_transmit_in_bounds N (start m) (N - start m) m)
        as (t1 & Ht1 & _); [lia..|].
      destruct (uart_transmit_in_bounds N 0 (dma_transferred m) m)
        as (t2 & Ht2 & _); [lia..|].
      unfold bind. rewrite Ht1, Ht2. unfold set_start. split.
      * split; [intros _; right; lia|done].
      * intros m' t H. by simplify_eq.
    + assert (Hw : to_uint32 (N - start m) = 2 ^ 32 + N - start m).
      { unfold to_uint32. symmetry.
        apply (Z.mod_unique_pos _ _ (-1)); lia. }
      unfold bind. rewrite uart_transmit_past_end by lia. split.
      * split; [intros H; by destruct H|lia].
      * done.
Qed.

(** ** How many bytes a tick sends *)

(** X3. One run of the handler sends [(end - start) mod N] bytes, so never a
    full buffer: at most [N - 1]. *)
Theorem drain_byte_count (N : Z) (m : machine) :
  wf N m ->
  exists m' t,
    SysTick_Handler N m = Some (tt, m', t) /\
    Z.of_nat (length (tx_bytes t)) = (dma_transferred m - start m) mod N /\
    Z.of_nat (length (tx_bytes t)) <= N - 1.
Proof.
  intros Hwf. pose proof Hwf as (HN & _).
  destruct (SysTick_Handler_region N m Hwf) as (t & Ht & _ & Htx & _).
  eexists. exists t. split; [exact Ht|].
  apply (f_equal length) in Htx. rewrite !length_fmap in Htx.
  unfold circular_region in Htx. rewrite length_fmap, length_seqZ in Htx.
  pose proof (Z.mod_pos_bound (dma_transferred m - start m) N). lia.
Qed.

(** ** Consecutive ticks *)

(** A region cut at an offset on the way is the two parts laid end to
    end. *)
Lemma circular_region_app (N s e1 e2 : Z) :
  0 < N ->
  (e1 - s) mod N + (e2 - e1) mod N < N ->
  circular_region N s e1 ++ circular_region N e1 e2 = circular_region N s e2.
Proof.
  intros HN Hsum.
  pose proof (Z.mod_pos_bound (e1 - s) N HN) as Ha.
  pose proof (Z.mod_pos_bound (e2 - e1) N HN) as Hb.
  unfold circular_region.
  replace ((e2 - s) mod N) with ((e1 - s) mod N + (e2 - e1) mod N).
  2:{ replace (e2 - s) with ((e1 - s) + (e2 - e1)) by lia.
      rewrite (Zplus_mod (e1 - s)).
      by rewrite (Z.mod_small ((e1 - s) mod N + (e2 - e1) mod N)) by lia. }
  rewrite seqZ_app, fmap_app by lia. f_equal.
  rewrite Z.add_0_l, <- (Z.add_0_r ((e1 - s) mod N)) at 1.
  rewrite <- fmap_add_seqZ, <- list_fmap_compose.
  apply list_fmap_ext. intros _ i _. simpl.
  replace (s + ((e1 - s) mod N + i)) with ((e1 - s) mod N + (s + i)) by lia.
  rewrite Zplus_mod_idemp_l. f_equal. lia.
Qed.

(** X4. Two ticks in a row, with the array not rewritten in between, send the
    bytes that one tick at the later offset would have sent, provided the
    first sampled offset lies on the way from [start] to the second. *)
Theorem two_drains_compose (N : Z) (m : machine) (e2 : Z) :
  wf N m -> 0 <= e2 < N ->
  (dma_transferred m - start m) mod N + (e2 - dma_transferred m) mod N < N ->
  exists m1 t1 m2 t2 t12,
    SysTick_Handler N m = Some (tt, m1, t1) /\
    SysTick_Handler N (Machine (ring_buffer m1) (start m1) e2) =
      Some (tt, m2, t2) /\
    SysTick_Handler N (Machine (ring_buffer m) (start m) e2) =
      Some (tt, m2, t12) /\
    tx_bytes t1 ++ tx_bytes t2 = tx_bytes t12 /\
    load_offsets t1 ++ load_offsets t2 = load_offsets t12.
Proof.
  intros Hwf He2 Hway. pose proof Hwf as (HN & Hlen & Hs & He).
  destruct (SysTick_Handler_region N m Hwf) as (t1 & Ht1 & Hld1 & Htx1 & _).
  assert (Hwf2 : wf N (Machine (ring_buffer m) (dma_transferred m) e2))
    by (unfold wf; simpl; lia).
  destruct (SysTick_Handler_region N _ Hwf2) as (t2 & Ht2 & Hld2 & Htx2 & _).
  assert (Hwf12 : wf N (Machine (ring_buffer m) (start m) e2))
    by (unfold wf; simpl; lia).
  destruct (SysTick_Handler_region N _ Hwf12)
    as (t12 & Ht12 & Hld12 & Htx12 & _).
  simpl in *. eexists. exists t1. eexists. exists t2, t12.
  split; [exact Ht1|]. split; [exact Ht2|]. split; [exact Ht12|]. split.
  - apply (inj (fmap Some)).
    rewrite fmap_app, Htx1, Htx2, Htx12, <- fmap_app.
    by rewrite circular_region_app by lia.
  - rewrite Hld1, Hld2, Hld12. by rewrite circular_region_app by lia.
Qed.

(** X5. Over any number of periods in which the DMA stores fewer than [N]
    bytes, the bytes sent are the bytes received, in order, none lost and
    none repeated; the handler never faults. *)
Theorem periods_echo (N : Z) (bursts : list (list byte)) :
  forall m,
    wf N m -> start m = dma_transferred m ->
    Forall (fun ws => Z.of_nat (length ws) < N) bursts ->
    exists m' t,
      periods N bursts m = Some (tt, m', t) /\
      tx_bytes t = concat bursts /\
      wf N m' /\ start m' = dma_transferred m'.
Proof.
  induction bursts as [|ws rest IH]; intros m Hwf Hse Hall.
  - exists m, []. split; [done|]. split; [done|]. by split.
  - apply Forall_cons in Hall as [Hws Hrest].
    pose proof (dma_write_all_wf N ws m Hwf) as Hwf1.
    destruct (SysTick_Handler_region N _ Hwf1) as (t1 & Ht1 & _ & Htx1 & _).
    rewrite dma_write_all_start, Hse, dma_write_all_region in Htx1 by done.
    apply (inj (fmap Some)) in Htx1.
    set (m1 := Machine (ring_buffer (dma_write_all N ws m))
                       (dma_transferred (dma_write_all N ws m))
                       (dma_transferred (dma_write_all N ws m))) in *.
    assert (Hwf1' : wf N m1).
    { destruct Hwf1 as (? & ? & ? & ?). unfold wf, m1. simpl. lia. }
    destruct (IH m1 Hwf1' eq_refl Hrest) as (m' & t & Ht & Htx & Hwf' & Hse').
    exists m', (t1 ++ t). split; [|split; [|done]].
    + simpl. unfold bind, period. by rewrite Ht1, Ht.
    + by rewrite tx_bytes_app, Htx1, Htx.
Qed.

(** ** A burst longer than the buffer *)

Lemma wrap_offsets_apart (N w i j : Z) :
  0 < N -> i < j -> j < i + N -> (w + i) mod N <> (w + j) mod N.
Proof.
  intros HN Hi Hj Heq.
  assert (H : (j - i) mod N = 0).
  { replace (j - i) with ((w + j) - (w + i)) by lia.
    rewrite Zminus_mod, Heq, Z.sub_diag. by rewrite Zmod_0_l. }
  rewrite Z.mod_small in H by lia. lia.
Qed.

(** Whatever the length of the burst, each of its last [N] bytes is in the
    array where the DMA put it: no later byte of the burst landed on it. *)
Lemma dma_write_all_lookup_recent (N : Z) (ws : list byte) (m : machine) :
  wf N m ->
  forall (i : nat) (b : byte),
    ws !! i = Some b ->
    Z.of_nat (length ws) <= Z.of_nat i + N ->
    ring_buffer (dma_write_all N ws m)
      !! Z.to_nat ((dma_transferred m + Z.of_nat i) mod N) = Some b.
Proof.
  intros Hwf. pose proof Hwf as (HN & Hlen & Hs & He).
  induction ws as [|c ws IH] using rev_ind; intros i b Hi HL; [done|].
  rewrite length_app in HL. simpl in HL.
  rewrite dma_write_all_snoc. simpl.
  rewrite dma_write_all_offset by lia.
  pose proof (Z.mod_pos_bound (dma_transferred m + Z.of_nat i) N ltac:(lia)).
  pose proof (Z.mod_pos_bound (dma_transferred m + Z.of_nat (length ws)) N
                ltac:(lia)).
  destruct (decide (i < length ws)%nat) as [Hlt|Hge].
  - rewrite lookup_app_l in Hi by done.
    rewrite list_lookup_insert_ne; [apply IH; [done|lia]|].
    intros Heq. apply Z2Nat.inj in Heq; [|lia..].
    symmetry in Heq. revert Heq. apply wrap_offsets_apart; lia.
  - apply lookup_lt_Some in Hi as Hi'. rewrite length_app in Hi'. simpl in Hi'.
    assert (i = length ws) as -> by lia.
    rewrite list_lookup_middle in Hi by done. simplify_eq.
    apply list_lookup_insert_eq. rewrite dma_write_all_length. lia.
Qed.

(** X6. After a burst of any length [L] stored since the previous drain, the
    handler sends the last [L mod N] bytes of the burst and nothing else:
    the older bytes are lost without a trace. *)
Theorem overflow_keeps_newest (N : Z) (m : machine) (ws : list byte) :
  wf N m -> start m = dma_transferred m ->
  exists m' t,
    SysTick_Handler N (dma_write_all N ws m) = Some (tt, m', t) /\
    tx_bytes t =
      drop (Z.to_nat (Z.of_nat (length ws) - Z.of_nat (length ws) mod N)) ws.
Proof.
  intros Hwf Hse. pose proof Hwf as (HN & Hlen & Hs & He).
  destruct (SysTick_Handler_region N _ (dma_write_all_wf N ws m Hwf))
    as (t & Ht & _ & Htx & _).
  eexists. exists t. split; [exact Ht|].
  apply (inj (fmap Some)). rewrite Htx.
  rewrite dma_write_all_start, Hse, dma_write_all_offset by lia.
  unfold circular_region. rewrite Zminus_mod_idemp_l.
  replace (dma_transferred m + Z.of_nat (length ws) - dma_transferred m)
    with (Z.of_nat (length ws)) by lia.
  set (L := Z.of_nat (length ws)).
  pose proof (Z.mod_pos_bound L N ltac:(lia)) as Hr.
  pose proof (Z.mod_le L N ltac:(lia) ltac:(lia)) as Hle.
  pose proof (Z.div_mod L N ltac:(lia)) as Hdm.
  apply list_eq. intros k. rewrite !list_lookup_fmap, lookup_drop.
  destruct (decide (Z.of_nat k < L mod N)) as [Hk|Hk].
  - rewrite lookup_seqZ_lt by lia. simpl. rewrite Z.add_0_l.
    destruct (lookup_lt_is_Some_2 ws (Z.to_nat (L - L mod N) + k)) as [b Hb];
      [lia|].
    rewrite Hb. simpl. f_equal.
    rewrite <- (dma_write_all_lookup_recent N ws m Hwf _ b Hb) by lia.
    f_equal. f_equal.
    replace (Z.of_nat (Z.to_nat (L - L mod N) + k))
      with (Z.of_nat k + (L / N) * N) by lia.
    rewrite Z.add_assoc. by rewrite Z.mod_add by lia.
  - rewrite lookup_seqZ_ge by lia. simpl.
    rewrite (lookup_ge_None_2 ws) by lia. done.
Qed.

(** ** The welcome message *)

Lemma uart_transmit_const_loop_in_bounds (arr : list byte) (n : nat) :
  forall data m,
    0 <= data -> data + Z.of_nat n <= sizeof arr ->
    exists t,
      uart_transmit_const_loop arr n data m = Some (tt, m, t) /\
      tx_bytes t = take n (drop (Z.to_nat data) arr) /\
      load_offsets t = [] /\ span_calls t = [].
Proof.
  unfold sizeof.
  induction n as [|n IH]; intros data m Hd Hn.
  - exists []. simpl. by rewrite take_0.
  - destruct (IH (data + 1) m) as (t & Ht & Htx & Hld & Hsp); [lia..|].
    assert (Hin : (Z.to_nat data < length arr)%nat) by lia.
    destruct (lookup_lt_is_Some_2 _ _ Hin) as [b Hb].
    exists ([] ++ [EvTx b] ++ t). split; [|split; [|split]].
    + simpl. unfold bind at 1. unfold deref_const, sizeof.
      rewrite bool_decide_eq_true_2 by lia. rewrite Hb.
      unfold bind, XMC_UART_CH_Transmit, emit. by rewrite Ht.
    + rewrite !tx_bytes_app, Htx. simpl.
      rewrite (drop_S _ b _ Hb). simpl.
      by replace (Z.to_nat (data + 1)) with (S (Z.to_nat data)) by lia.
    + by rewrite !load_offsets_app, Hld.
    + by rewrite !span_calls_app, Hsp.
Qed.

(** Called with the start of an array and its [sizeof], [uart_transmit]
    sends the whole array and touches nothing else. *)
Lemma uart_transmit_const_whole (arr : list byte) (m : machine) :
  sizeof arr < 2 ^ 32 ->
  exists t,
    uart_transmit_const arr 0 (to_uint32 (sizeof arr)) m = Some (tt, m, t) /\
    tx_bytes t = arr /\ load_offsets t = [] /\ span_calls t = [].
Proof.
  intros Hsz. unfold uart_transmit_const.
  rewrite to_uint32_small by (unfold sizeof in *; lia).
  destruct (uart_transmit_const_loop_in_bounds arr (Z.to_nat (sizeof arr)) 0 m)
    as (t & Ht & Htx & Hld & Hsp); [unfold sizeof; lia..|].
  exists t. split; [done|]. split; [|done].
  rewrite Htx. unfold sizeof. rewrite Nat2Z.id. simpl. apply firstn_all.
Qed.

(** On the ring buffer the two embeddings of [uart_transmit] agree: they
    fault together and send the same bytes. *)
Lemma uart_transmit_const_loop_agrees (N : Z) (n : nat) :
  forall data m,
    Z.of_nat (length (ring_buffer m)) = N ->
    match uart_transmit_loop N n data m,
          uart_transmit_const_loop (ring_buffer m) n data m with
    | Some (_, m1, t1), Some (_, m2, t2) =>
        m1 = m /\ m2 = m /\ tx_bytes t1 = tx_bytes t2
    | None, None => True
    | _, _ => False
    end.
Proof.
  induction n as [|n IH]; intros data m Hlen; [done|].
  simpl. unfold bind at 1 3. unfold deref, deref_const, sizeof. rewrite Hlen.
  destruct (bool_decide (0 <= data < N)); [|done].
  destruct (ring_buffer m !! Z.to_nat data) as [b|]; [|done].
  unfold bind, XMC_UART_CH_Transmit, emit.
  specialize (IH (data + 1) m Hlen).
  destruct (uart_transmit_loop N n (data + 1) m) as [[[[] m1] t1]|],
           (uart_transmit_const_loop (ring_buffer m) n (data + 1) m)
             as [[[[] m2] t2]|]; try done.
  destruct IH as (-> & -> & Htx). repeat split.
  rewrite !tx_bytes_app, Htx. done.
Qed.

(** X7. The welcome message of [main] is sent without a fault and leaves the
    machine as it was; each of the five calls passes [sizeof] of its
    array, so what goes out is each string followed by its terminating NUL:
    330 bytes, five of them NUL, and the ring buffer is not read. *)
Theorem main_banner_sends_terminators (m : machine) :
  exists t,
    main_banner m = Some (tt, m, t) /\
    tx_bytes t =
      DELIMITER_STR ++ APP_NAME ++ DELIMITER_STR ++ APP_HELP1 ++ APP_HELP2 /\
    length (tx_bytes t) = 330%nat /\
    count_occ byte_eq_dec (tx_bytes t) x00 = 5%nat /\
    load_offsets t = [].
Proof.
  destruct (uart_transmit_const_whole DELIMITER_STR m)
    as (t1 & H1 & Htx1 & Hld1 & _); [by vm_compute|].
  destruct (uart_transmit_const_whole APP_NAME m)
    as (t2 & H2 & Htx2 & Hld2 & _); [by vm_compute|].
  destruct (uart_transmit_const_whole APP_HELP1 m)
    as (t4 & H4 & Htx4 & Hld4 & _); [by vm_compute|].
  destruct (uart_transmit_const_whole APP_HELP2 m)
    as (t5 & H5 & Htx5 & Hld5 & _); [by vm_compute|].
  exists (t1 ++ t2 ++ t1 ++ t4 ++ t5).
  assert (Htx : tx_bytes (t1 ++ t2 ++ t1 ++ t4 ++ t5) =
          DELIMITER_STR ++ APP_NAME ++ DELIMITER_STR ++ APP_HELP1 ++ APP_HELP2)
    by (by rewrite !tx_bytes_app, Htx1, Htx2, Htx4, Htx5).
  split; [|split; [exact Htx|split; [|split]]].
  - unfold main_banner, bind. by rewrite H1, H2, H1, H4, H5.
  - rewrite Htx. by vm_compute.
  - rewrite Htx. by vm_compute.
  - by rewrite !load_offsets_app, Hld1, Hld2, Hld4, Hld5.
Qed.

(** ** The further properties at sample states *)

Lemma uart_transmit_returns_iff_witness :
  Z.of_nat (length (ring_buffer m_linear)) = 8 /\ 0 <= 6 /\
  (is_Some (uart_transmit 8 6 3 m_linear) <-> 3 <= 0 \/ 6 + 3 <= 8).
Proof.
  split; [reflexivity|]. split; [lia|].
  apply (uart_transmit_returns_iff 8 6 3 m_linear); [reflexivity|lia].
Defined.

Lemma SysTick_Handler_returns_iff_witness :
  0 < 8 < 2 ^ 32 /\
  Z.of_nat (length (ring_buffer (Machine buf8 3 9))) = 8 /\
  0 <= start (Machine buf8 3 9) < 2 ^ 32 /\
  0 <= dma_transferred (Machine buf8 3 9) < 2 ^ 32 /\
  (is_Some (SysTick_Handler 8 (Machine buf8 3 9)) <->
   3 = 9 \/ (3 <= 8 /\ 9 <= 8)) /\
  (forall m' t,
     SysTick_Handler 8 (Machine buf8 3 9) = Some (tt, m', t) ->
     m' = Machine buf8 9 9).
Proof.
  split; [lia|]. split; [reflexivity|]. split; [simpl; lia|].
  split; [simpl; lia|].
  apply (SysTick_Handler_returns_iff 8 (Machine buf8 3 9));
    [lia|reflexivity|simpl; lia|simpl; lia].
Defined.

Lemma drain_byte_count_witness :
  wf 8 m_wrapped /\
  exists m' t,
    SysTick_Handler 8 m_wrapped = Some (tt, m', t) /\
    Z.of_nat (length (tx_bytes t)) = (2 - 6) mod 8 /\
    Z.of_nat (length (tx_bytes t)) <= 8 - 1.
Proof.
  assert (Hw : wf 8 m_wrapped) by (unfold wf; simpl; lia).
  split; [exact Hw|]. exact (drain_byte_count 8 m_wrapped Hw).
Defined.

Lemma two_drains_compose_witness :
  wf 8 (Machine buf8 6 1) /\ 0 <= 3 < 8 /\
  (1 - 6) mod 8 + (3 - 1) mod 8 < 8 /\
  exists m1 t1 m2 t2 t12,
    SysTick_Handler 8 (Machine buf8 6 1) = Some (tt, m1, t1) /\
    SysTick_Handler 8 (Machine (ring_buffer m1) (start m1) 3) =
      Some (tt, m2, t2) /\
    SysTick_Handler 8 (Machine buf8 6 3) = Some (tt, m2, t12) /\
    tx_bytes t1 ++ tx_bytes t2 = tx_bytes t12 /\
    load_offsets t1 ++ load_offsets t2 = load_offsets t12.
Proof.
  assert (Hw : wf 8 (Machine buf8 6 1)) by (unfold wf; simpl; lia).
  assert (He : 0 <= 3 < 8) by lia.
  assert (Hway : (1 - 6) mod 8 + (3 - 1) mod 8 < 8) by (vm_compute; reflexivity).
  split; [exact Hw|]. split; [exact He|]. split; [exact Hway|].
  exact (two_drains_compose 8 (Machine buf8 6 1) 3 Hw He Hway).
Defined.

Lemma periods_echo_witness :
  wf 8 (reset_machine 8) /\
  start (reset_machine 8) = dma_transferred (reset_machine 8) /\
  Forall (fun ws => Z.of_nat (length ws) < 8)
    [[x61; x62; x63]; []; [x31; x32; x33; x34; x35; x36; x37]] /\
  exists m' t,
    periods 8 [[x61; x62; x63]; []; [x31; x32; x33; x34; x35; x36; x37]]
      (reset_machine 8) = Some (tt, m', t) /\
    tx_bytes t =
      concat [[x61; x62; x63]; []; [x31; x32; x33; x34; x35; x36; x37]] /\
    wf 8 m' /\ start m' = dma_transferred m'.
Proof.
  assert (Hw : wf 8 (reset_machine 8)) by (unfold wf; simpl; lia).
  assert (Hall : Forall (fun ws => Z.of_nat (length ws) < 8)
            [[x61; x62; x63]; []; [x31; x32; x33; x34; x35; x36; x37]])
    by (repeat constructor; simpl; lia).
  split; [exact Hw|]. split; [reflexivity|]. split; [exact Hall|].
  exact (periods_echo 8 _ (reset_machine 8) Hw eq_refl Hall).
Defined.

Lemma overflow_keeps_newest_witness :
  wf 8 m_idle /\ start m_idle = dma_transferred m_idle /\
  exists m' t,
    SysTick_Handler 8
      (dma_write_all 8
         [x30; x31; x32; x33; x34; x35; x36; x37; x38; x39; x41] m_idle) =
      Some (tt, m', t) /\
    tx_bytes t =
      drop (Z.to_nat (Z.of_nat 11 - Z.of_nat 11 mod 8))
        [x30; x31; x32; x33; x34; x35; x36; x37; x38; x39; x41].
Proof.
  assert (Hw : wf 8 m_idle) by (unfold wf; simpl; lia).
  split; [exact Hw|]. split; [reflexivity|].
  exact (overflow_keeps_newest 8 m_idle
           [x30; x31; x32; x33; x34; x35; x36; x37; x38; x39; x41]
           Hw eq_refl).
Defined.
